(** * automated-trading: the C++ historical-bar core

    A shallow embedding of [autotrade/src/utils/timeUtils.cpp],
    [autotrade/src/dataStructs/bar.{h,cpp}] and
    [autotrade/src/HistoricalRetriever.{h,cpp}], and the properties of the
    bar-size, bar-series, date-range and retrieval code.

    Boost.Date_Time values are modelled by the integers Boost stores:
    - a [time_duration] and a [ptime] are a tick count (microseconds, the
      default resolution of [boost::posix_time]);
    - a [gregorian::date] is its day number.
    The C++ tick counts are 64-bit; every 64-bit value is a [Z], and no
    operation used below leaves the 64-bit range on an in-range input, so the
    statements quantify over all of [Z].  The special values of Boost
    (not_a_date_time and the infinities) are outside the model. *)

From Stdlib Require Import ZArith Lia List String Ascii.
From Stdlib Require Import DecimalString DecimalZ DecimalPos.
From Equations Require Import Equations.
From stdpp Require Import base list list_numbers sorting gmap fin_maps.

Open Scope Z_scope.

(** ** Outcomes of a C++ call *)

(** The exceptions the sources throw. *)
Inductive exception : Type :=
| invalid_argument (what : string)
| logic_error (what : string).

(** What a call to a value-returning C++ function does: it returns a value,
    throws, or lets control reach the closing brace without a [return]
    statement (no value is produced; the behaviour of the caller is then
    undefined). *)
Inductive outcome (A : Type) : Type :=
| Returned (a : A)
| Thrown (e : exception)
| FellOffEnd.
Arguments Returned {A} a.
Arguments Thrown {A} e.
Arguments FellOffEnd {A}.

(** Sequencing: a throw or a missing return ends the computation.  The
    instances give the [x ← c; k] and [c ;; k] notations. *)
#[global] Instance outcome_ret : MRet outcome := fun A a => Returned a.
#[global] Instance outcome_bind : MBind outcome := fun A B k c =>
  match c with
  | Returned a => k a
  | Thrown e => Thrown e
  | FellOffEnd => FellOffEnd
  end.

Definition succeeds {A} (c : outcome A) : Prop := exists a, c = Returned a.
Definition throws {A} (c : outcome A) : Prop := exists e, c = Thrown e.

(** ** timeUtils *)

Module timeUtils.

(** [boost::posix_time::time_duration]: a signed count of microseconds. *)
Definition time_duration : Type := Z.
(** [boost::posix_time::ptime]: microseconds since the start of day
    number 0; a well-formed [ptime] has a non-negative count. *)
Definition ptime : Type := Z.
(** [boost::gregorian::date]: the day number. *)
Definition date : Type := Z.

Definition ticks_per_second : Z := 1000000.
Definition ticks_per_day : Z := 86400 * ticks_per_second.

(** The duration constructors [seconds(n)], [minutes(n)], [hours(n)]. *)
Definition seconds (s : Z) : time_duration := s * ticks_per_second.
Definition minutes (m : Z) : time_duration := m * (60 * ticks_per_second).
Definition hours (h : Z) : time_duration := h * (3600 * ticks_per_second).
(** [time_duration(h, m, s)]. *)
Definition td (h m s : Z) : time_duration :=
  (h * 3600 + m * 60 + s) * ticks_per_second.
(** [boost::gregorian::days(n)], a count of days. *)
Definition days (n : Z) : Z := n.

(** The accessors [d.hours()], [d.minutes()], [d.seconds()]: the hour
    count, and the normalised minute and second fields, with the
    truncating division and remainder of C++. *)
Definition time_duration_hours (d : time_duration) : Z :=
  Z.quot d (3600 * ticks_per_second).
Definition time_duration_minutes (d : time_duration) : Z :=
  Z.rem (Z.quot d (60 * ticks_per_second)) 60.
Definition time_duration_seconds (d : time_duration) : Z :=
  Z.rem (Z.quot d ticks_per_second) 60.

(** [gregorian::date(y, m, d)]: the day number of a calendar date
    (Boost's [gregorian_calendar::day_number]). *)
Definition date_of_ymd (year month day : Z) : date :=
  let a := Z.quot (14 - month) 12 in
  let y := year + 4800 - a in
  let m := month + 12 * a - 3 in
  day + Z.quot (153 * m + 2) 5 + 365 * y
    + Z.quot y 4 - Z.quot y 100 + Z.quot y 400 - 32045.

(** [ptime(d, t)], [p.date()] and [p.time_of_day()]. *)
Definition ptime_of (d : date) (t : time_duration) : ptime :=
  d * ticks_per_day + t.
Definition ptime_date (p : ptime) : date := Z.quot p ticks_per_day.
Definition time_of_day (p : ptime) : time_duration := Z.rem p ticks_per_day.

(** The loop of [getDatesRange(date, date)]:
    [while (currentDate < end) { datesRange.push_back(currentDate);
                                 currentDate += days(1); }]. *)
Equations? getDatesRange_loop (currentDate end_ : date)
    (datesRange : list date) : list date
    by wf (Z.to_nat (end_ - currentDate)) lt :=
  getDatesRange_loop currentDate end_ datesRange with Z_lt_dec currentDate end_ := {
    | left _ =>
        getDatesRange_loop (currentDate + days 1) end_
                           (datesRange ++ [currentDate]);
    | right _ => datesRange }.
Proof. unfold days. lia. Qed.

(** [getDatesRange(const date &start, const date &end)]. *)
Definition getDatesRange_date (start end_ : date) : list date :=
  getDatesRange_loop start end_ [].

(** [getDatesRange(const ptime &start, const ptime &end)]. *)
Definition getDatesRange (start end_ : ptime) : list date :=
  let startDate := ptime_date start in
  let endDate := ptime_date end_ in
  getDatesRange_date startDate endDate.

End timeUtils.

(** [std::to_string(int)]: the decimal numeral, with a leading minus sign
    for a negative number. *)
Definition to_string (n : Z) : string := NilZero.string_of_int (Z.to_int n).

(** ** bar *)

Module bar.
Import timeUtils.

(** [class BarSize]: the private member [barSize_]. *)
Record BarSize : Type := mkBarSize { barSize_ : time_duration }.

(** [BarSize::validateBarSize]. *)
Definition validateBarSize (barSize : time_duration) : outcome unit :=
  if barSize >? hours 24
  then Thrown (invalid_argument "barSize must be less than 24 hours.")
  else Returned tt.

(** [BarSize::BarSize(time_duration)]: the member is initialised, then
    validated. *)
Definition BarSize_new (barSize : time_duration) : outcome BarSize :=
  let this := mkBarSize barSize in
  validateBarSize (barSize_ this) ;; Returned this.

(** [BarSize::BarSize(const BarSize &)]. *)
Definition BarSize_copy (barSize : BarSize) : outcome BarSize :=
  let this := mkBarSize (barSize_ barSize) in
  validateBarSize (barSize_ this) ;; Returned this.

(** The comparison operators with a [time_duration] on the right. *)
Definition operator_lt_duration (this : BarSize) (duration : time_duration) : bool :=
  barSize_ this <? duration.
Definition operator_le_duration (this : BarSize) (duration : time_duration) : bool :=
  barSize_ this <=? duration.
Definition operator_gt_duration (this : BarSize) (duration : time_duration) : bool :=
  barSize_ this >? duration.
Definition operator_ge_duration (this : BarSize) (duration : time_duration) : bool :=
  barSize_ this >=? duration.
Definition operator_eq_duration (this : BarSize) (duration : time_duration) : bool :=
  barSize_ this =? duration.

(** The comparison operators with a [BarSize] on the right. *)
Definition operator_lt (this other : BarSize) : bool :=
  barSize_ this <? barSize_ other.
Definition operator_le (this other : BarSize) : bool :=
  barSize_ this <=? barSize_ other.
Definition operator_gt (this other : BarSize) : bool :=
  barSize_ this >? barSize_ other.
Definition operator_ge (this other : BarSize) : bool :=
  barSize_ this >=? barSize_ other.
Definition operator_eq (this other : BarSize) : bool :=
  barSize_ this =? barSize_ other.

(** [BarSize::toString]. *)
Definition toString (this : BarSize) : string :=
  let d := barSize_ this in
  if d =? seconds 1 then "1 sec"
  else if d <? minutes 1 then
    String.append (to_string (time_duration_seconds d)) " secs"
  else if d =? minutes 1 then "1 min"
  else if d <? hours 1 then
    String.append (to_string (time_duration_minutes d)) " mins"
  else if d =? hours 1 then "1 hour"
  else if d <? hours 24 then
    String.append (to_string (time_duration_hours d)) " hours"
  else "1 day".

(** [BarSize::operator+(const std::string &)],
    [operator+(const std::string &, const BarSize &)] and [operator+=]. *)
Definition operator_plus (this : BarSize) (other : string) : string :=
  String.append (toString this) other.
Definition operator_plus_string (first : string) (second : BarSize) : string :=
  String.append first (toString second).
Definition operator_plus_assign (first : string) (second : BarSize) : string :=
  operator_plus_string first second.

Section BarData.
(** The C++ [double] of the price fields; no operation of the sources
    computes with it. *)
Variable double : Type.

(** [struct Bar]. *)
Record Bar : Type := mkBar {
  dateTime : ptime;
  high : double;
  low : double;
  open : double;
  close : double;
  wap : double;
  volume : Z;
  count : Z }.

(** [class BarData]: the members [std::map<ptime, Bar> bars] and
    [BarSize barSize_]. *)
Record BarData : Type := mkBarData {
  bars : gmap Z Bar;
  series_barSize_ : BarSize }.

(** [BarData::BarData(const time_duration &)] and
    [BarData::BarData(const BarSize &)]: the map starts empty, the
    [BarSize] member is built by the matching [BarSize] constructor. *)
Definition BarData_new (barSize : time_duration) : outcome BarData :=
  b ← BarSize_new barSize; Returned (mkBarData ∅ b).
Definition BarData_of_BarSize (barSize : BarSize) : outcome BarData :=
  b ← BarSize_copy barSize; Returned (mkBarData ∅ b).

(** [BarData::addBar]: [bars[bar.dateTime] = bar]. *)
Definition addBar (this : BarData) (bar : Bar) : BarData :=
  mkBarData (<[dateTime bar := bar]> (bars this)) (series_barSize_ this).

(** [BarData::size] and [BarData::barSize]. *)
Definition BarData_size (this : BarData) : nat := size (bars this).
Definition barSize (this : BarData) : BarSize := series_barSize_ this.
End BarData.

Arguments mkBar {double}.
Arguments dateTime {double}.
Arguments mkBarData {double}.
Arguments bars {double}.
Arguments series_barSize_ {double}.
Arguments BarData_new {double}.
Arguments BarData_of_BarSize {double}.
Arguments addBar {double}.
Arguments BarData_size {double}.
Arguments barSize {double}.

End bar.

(** ** histRetriever *)

Module histRetriever.
Import timeUtils bar.

(** The file and network operations a retrieval could perform; a call
    threads the log of those performed so far. *)
Inductive io_event : Type :=
| CacheProbe (path : string)
| ProviderFetch (symbol : string) (startDateTime endDateTime : ptime).

(** [getFilePaths] of the anonymous namespace: the daily branch pushes
    the path and reaches the closing brace without returning [paths]; the
    intraday branch throws. *)
Definition getFilePaths (symbol : string) (startDateTime endDateTime : ptime)
    (barSize : BarSize) : outcome (list string) :=
  let paths : list string := [] in
  let basePath := String.append (String.append "../histData/" symbol) "/" in
  if operator_ge_duration barSize (hours 24) then
    let paths := paths ++ [String.append basePath "daily.csv"] in
    FellOffEnd
  else
    Thrown (logic_error
      "Retrieving intraday historical bar data is not yer implemented.").

(** [retrieveBarData]: the body is empty.  No statement runs, so nothing
    is thrown, the log is unchanged, and control reaches the closing brace
    without a [return]. *)
Definition retrieveBarData {double : Type} (symbol : string)
    (startDateTime endDateTime : ptime) (barSize : BarSize)
    (includeAfterHours searchCache storeToCache : bool)
    (log : list io_event) : outcome (BarData double) * list io_event :=
  (FellOffEnd, log).

End histRetriever.

(** ** The specification's notions *)

Module Spec.
Import timeUtils.

(** A valid bar size: [0 < duration <= 24h]. *)
Definition valid_duration (d : time_duration) : Prop := 0 < d <= hours 24.

(** An instant falls exactly on a day boundary. *)
Definition on_day_boundary (p : ptime) : Prop := time_of_day p = 0.

(** The number of calendar days the half-open range [[start, end_)]
    spans: the days from the one of [start] to the one of the last
    instant of the range, [end_ - 1] tick (see [spanned_days_covers]). *)
Definition spanned_days (start end_ : ptime) : Z :=
  ptime_date (end_ - 1) - ptime_date start + 1.

(** The unit word follows the magnitude of the count: singular exactly
    when the count is 1. *)
Definition counted (n : Z) (unit : string) : string :=
  String.append (to_string n)
    (String.append " " (String.append unit (if n =? 1 then "" else "s"))).

(** The canonical display form: seconds below one minute, minutes below
    one hour, hours below 24 hours, and "1 day" at 24 hours. *)
Definition canonical_label (d : time_duration) : string :=
  if d <? minutes 1 then counted (d / seconds 1) "sec"
  else if d <? hours 1 then counted (d / minutes 1) "min"
  else if d <? hours 24 then counted (d / hours 1) "hour"
  else "1 day".

(** The duration is a whole number of the units of its tier. *)
Definition whole_units (d : time_duration) : Prop :=
  if d <? minutes 1 then d mod seconds 1 = 0
  else if d <? hours 1 then d mod minutes 1 = 0
  else if d <? hours 24 then d mod hours 1 = 0
  else True.

End Spec.

(** ** The shape of the labels of [BarSize::toString] *)

Module Label.
Import timeUtils.

(** The unit words [toString] writes after the count. *)
Inductive unit_word : Type := Sec | Secs | Min | Mins | Hour | Hours | Day.

Definition word (u : unit_word) : string :=
  match u with
  | Sec => "sec" | Secs => "secs"
  | Min => "min" | Mins => "mins"
  | Hour => "hour" | Hours => "hours"
  | Day => "day"
  end.

(** The duration one unit of a word stands for. *)
Definition ticks (u : unit_word) : time_duration :=
  match u with
  | Sec | Secs => seconds 1
  | Min | Mins => minutes 1
  | Hour | Hours => hours 1
  | Day => hours 24
  end.

(** A count, a space and a unit word. *)
Definition render (k : Z) (u : unit_word) : string :=
  String.append (to_string k) (String " " (word u)).

End Label.

(** ** Which comparisons bar.h declares *)

Module Comparison.
Import timeUtils bar.

(** An operand of a relational comparison: a duration or a bar size. *)
Inductive operand : Type :=
| Duration (d : time_duration)
| Size (b : BarSize).

Inductive relop : Type := Lt | Le | Gt | Ge | Eq.

(** Boost's comparison of two durations, on the tick counts. *)
Definition duration_compare (op : relop) (x y : time_duration) : bool :=
  match op with
  | Lt => x <? y | Le => x <=? y | Gt => x >? y | Ge => x >=? y | Eq => x =? y
  end.

(** The member operators of [BarSize] with a duration, and with a
    [BarSize], as right operand. *)
Definition member_duration (op : relop) (this : BarSize)
    (duration : time_duration) : bool :=
  match op with
  | Lt => operator_lt_duration this duration
  | Le => operator_le_duration this duration
  | Gt => operator_gt_duration this duration
  | Ge => operator_ge_duration this duration
  | Eq => operator_eq_duration this duration
  end.

Definition member_BarSize (op : relop) (this other : BarSize) : bool :=
  match op with
  | Lt => operator_lt this other
  | Le => operator_le this other
  | Gt => operator_gt this other
  | Ge => operator_ge this other
  | Eq => operator_eq this other
  end.

(** The expression [lhs op rhs]: the result of the operator that overload
    resolution selects, or [None] when no operator applies and the
    expression does not compile.  bar.h declares the ten comparisons as
    members of [BarSize], so the [BarSize] is their left operand; its
    constructor from a duration is [explicit] and it has no conversion to a
    duration, so no operand is converted.  With a duration on the left and a
    [BarSize] on the right nothing applies, except that from C++20 on
    ([cxx20]) [==] also tries the member with the operands exchanged. *)
Definition comparison (cxx20 : bool) (op : relop) (lhs rhs : operand)
    : option bool :=
  match lhs, rhs with
  | Size b, Duration d => Some (member_duration op b d)
  | Size b, Size other => Some (member_BarSize op b other)
  | Duration x, Duration y => Some (duration_compare op x y)
  | Duration d, Size b =>
      match op with
      | Eq => if cxx20 then Some (member_duration Eq b d) else None
      | _ => None
      end
  end.

End Comparison.

(** * Properties *)

(** ** Dates and instants *)

Section TimeFacts.
Import timeUtils.

Lemma ptime_date_mono (p q : ptime) : p <= q -> ptime_date p <= ptime_date q.
Proof.
  intros Hpq. unfold ptime_date, ticks_per_day, ticks_per_second.
  apply Z.quot_le_mono; lia.
Qed.

Lemma ptime_date_of (d : date) (t : time_duration) :
  0 <= d -> 0 <= t < ticks_per_day -> ptime_date (ptime_of d t) = d.
Proof.
  unfold ptime_date, ptime_of, ticks_per_day, ticks_per_second.
  intros Hd Ht. Z.to_euclidean_division_equations. lia.
Qed.

Lemma ptime_date_midnight (d : date) : ptime_date (ptime_of d 0) = d.
Proof.
  unfold ptime_date, ptime_of, ticks_per_day, ticks_per_second.
  rewrite Z.add_0_r. apply Z.quot_mul. lia.
Qed.

(** Just before a day boundary lies the previous day. *)
Lemma ptime_date_before_boundary (p : ptime) :
  0 < p -> Spec.on_day_boundary p -> ptime_date (p - 1) = ptime_date p - 1.
Proof.
  unfold Spec.on_day_boundary, time_of_day, ptime_date, ticks_per_day,
    ticks_per_second.
  intros Hp Hb. Z.to_euclidean_division_equations. lia.
Qed.

(** Inside a day, the instant one tick earlier is on the same day. *)
Lemma ptime_date_inside_day (p : ptime) :
  0 < p -> ~ Spec.on_day_boundary p -> ptime_date (p - 1) = ptime_date p.
Proof.
  unfold Spec.on_day_boundary, time_of_day, ptime_date, ticks_per_day,
    ticks_per_second.
  intros Hp Hb. Z.to_euclidean_division_equations. lia.
Qed.

(** [Spec.spanned_days] counts the days that hold an instant of the
    range. *)
Lemma spanned_days_covers (start end_ : ptime) (d : date) :
  0 <= start < end_ ->
  (exists t, start <= t < end_ /\ ptime_date t = d) <->
  ptime_date start <= d <= ptime_date (end_ - 1).
Proof.
  intros Hse. split.
  - intros (t & Ht & <-). split; apply ptime_date_mono; lia.
  - intros Hd. exists (Z.max start (ptime_of d 0)).
    revert Hd.
    unfold ptime_date, ptime_of, ticks_per_day, ticks_per_second.
    intros Hd. Z.to_euclidean_division_equations. lia.
Qed.

Lemma getDatesRange_loop_seqZ (currentDate end_ : date) (datesRange : list date) :
  getDatesRange_loop currentDate end_ datesRange
  = datesRange ++ seqZ currentDate (end_ - currentDate).
Proof.
  funelim (getDatesRange_loop currentDate end_ datesRange).
  - match goal with IH : getDatesRange_loop _ _ _ = _ ++ seqZ _ _ |- _ =>
      rewrite IH end.
    unfold days. rewrite (seqZ_cons currentDate) by lia.
    rewrite <- app_assoc. simpl. do 3 f_equal; lia.
  - rewrite seqZ_nil by lia. now rewrite app_nil_r.
Qed.

(** The dates of the range, in closed form. *)
Lemma getDatesRange_date_seqZ (start end_ : date) :
  getDatesRange_date start end_ = seqZ start (end_ - start).
Proof. unfold getDatesRange_date. now rewrite getDatesRange_loop_seqZ. Qed.

Lemma getDatesRange_seqZ (start end_ : ptime) :
  getDatesRange start end_
  = seqZ (ptime_date start) (ptime_date end_ - ptime_date start).
Proof. unfold getDatesRange. apply getDatesRange_date_seqZ. Qed.

Lemma seqZ_StronglySorted (m n : Z) : StronglySorted Z.lt (seqZ m n).
Proof.
  destruct (Z_le_gt_dec n 0) as [Hn|Hn]; [rewrite seqZ_nil by lia; constructor|].
  rewrite <- (Z2Nat.id n) by lia. generalize (Z.to_nat n) as k. clear.
  induction k as [|k IH]; [constructor|].
  rewrite seqZ_S. apply StronglySorted_app_2; [|exact IH|repeat constructor].
  intros x y Hx Hy. apply elem_of_seqZ in Hx.
  apply list_elem_of_singleton in Hy. lia.
Qed.

Lemma seqZ_head (m n : Z) : 0 < n -> head (seqZ m n) = Some m.
Proof. intros Hn. now rewrite seqZ_cons by lia. Qed.

Lemma seqZ_last (m n : Z) : 0 < n -> last (seqZ m n) = Some (m + n - 1).
Proof.
  intros Hn. rewrite <- (Z2Nat.id n) at 1 by lia.
  destruct (Z.to_nat n) as [|k] eqn:Hk; [lia|].
  rewrite seqZ_S, last_snoc. f_equal. lia.
Qed.

End TimeFacts.

(** ** getDatesRange *)

Section GetDatesRange.
Import timeUtils.

(** The test "Generate dates ranges" of testTimeUtils.cpp. *)
Example getDatesRange_test :
  let start := ptime_of (date_of_ymd 2010 9 10) 0 in
  let end_ := ptime_of (date_of_ymd 2010 9 20) 0 in
  let datesRange := getDatesRange start end_ in
  length datesRange = 10%nat /\
  datesRange !! 0%nat = Some (ptime_date start) /\
  datesRange !! 9%nat = Some (ptime_date end_ - days 1) /\
  getDatesRange_date (date_of_ymd 2010 9 10) (date_of_ymd 2010 9 20)
  = datesRange.
Proof. vm_compute. repeat split; reflexivity. Qed.

(** When [end_] lies strictly inside a day, that last, partial day is
    spanned by the range but absent from the result. *)
Lemma getDatesRange_length_inside_day (start end_ : ptime) :
  0 <= start -> start < end_ -> ~ Spec.on_day_boundary end_ ->
  Z.of_nat (length (getDatesRange start end_))
  = Spec.spanned_days start end_ - 1.
Proof.
  intros H0 Hlt Hb. rewrite getDatesRange_seqZ, length_seqZ.
  unfold Spec.spanned_days. rewrite ptime_date_inside_day by (lia || done).
  pose proof (ptime_date_mono start end_). lia.
Qed.

(** C3, as stated, fails when [end_] is not on a day boundary: the range
    2020-03-30 09:00 to 2020-04-03 16:30 spans 5 calendar days, and the
    result holds only 4 dates; on a range inside one day the result is
    empty and has no first element. *)
Lemma getDatesRange_spanned_counterexample :
  let start := ptime_of (date_of_ymd 2020 3 30) (td 9 0 0) in
  let end_ := ptime_of (date_of_ymd 2020 4 3) (td 16 30 0) in
  let noon := ptime_of (date_of_ymd 2020 3 30) (td 12 0 0) in
  (start < end_ /\ Spec.spanned_days start end_ = 5 /\
   length (getDatesRange start end_) = 4%nat) /\
  (start < noon /\ Spec.spanned_days start noon = 1 /\
   getDatesRange start noon = [] /\
   head (getDatesRange start noon) <> Some (ptime_date start)).
Proof. vm_compute. repeat split; congruence. Qed.

(** C3 (amended): for well-formed instants [start < end_] with [end_]
    exactly on a day boundary, whose range [[start, end_)] spans [N]
    calendar days, [getDatesRange] returns exactly [N] dates (and [N >= 1]),
    in ascending order, the first being the date of [start], the last the
    day before the date of [end_], and the date of [end_] is not among
    them. *)
Theorem getDatesRange_day_boundary (start end_ : ptime) :
  0 <= start -> start < end_ -> Spec.on_day_boundary end_ ->
  let datesRange := getDatesRange start end_ in
  Z.of_nat (length datesRange) = Spec.spanned_days start end_ /\
  1 <= Spec.spanned_days start end_ /\
  StronglySorted Z.lt datesRange /\
  head datesRange = Some (ptime_date start) /\
  last datesRange = Some (ptime_date end_ - 1) /\
  ~ In (ptime_date end_) datesRange.
Proof.
  intros H0 Hlt Hb datesRange. subst datesRange.
  rewrite getDatesRange_seqZ. unfold Spec.spanned_days.
  rewrite ptime_date_before_boundary by (lia || done).
  assert (Hd : ptime_date start < ptime_date end_).
  { pose proof (ptime_date_mono start (end_ - 1) ltac:(lia)) as Hm.
    rewrite ptime_date_before_boundary in Hm by (lia || done). lia. }
  rewrite length_seqZ, seqZ_head, seqZ_last by lia.
  repeat split; try lia.
  - apply seqZ_StronglySorted.
  - f_equal. lia.
  - rewrite <- list_elem_of_In, elem_of_seqZ. lia.
Qed.

(** The instance of the test: 2010-09-10 to 2010-09-20 yields 10 dates,
    the first 2010-09-10 and the last 2010-09-19. *)
Lemma getDatesRange_day_boundary_witness :
  let start := ptime_of (date_of_ymd 2010 9 10) 0 in
  let end_ := ptime_of (date_of_ymd 2010 9 20) 0 in
  Z.of_nat (length (getDatesRange start end_)) = 10 /\
  head (getDatesRange start end_) = Some (date_of_ymd 2010 9 10) /\
  last (getDatesRange start end_) = Some (date_of_ymd 2010 9 19).
Proof.
  intros start end_.
  destruct (getDatesRange_day_boundary start end_) as (Hn & _ & _ & Hh & Hl & _).
  - vm_compute. discriminate.
  - reflexivity.
  - reflexivity.
  - split; [exact Hn | split; [exact Hh | exact Hl]].
Defined.

(** C10: [getDatesRange] on instants depends only on the calendar dates
    of its arguments; the date of [end_] is never in the result, also when
    [end_] lies strictly after midnight; and when the date of [start] is
    not before the date of [end_] the result is the empty list (the
    function is total: no error arises). *)
Theorem getDatesRange_only_dates (start end_ : ptime) :
  (forall start' end', ptime_date start' = ptime_date start ->
     ptime_date end' = ptime_date end_ ->
     getDatesRange start' end' = getDatesRange start end_) /\
  ~ In (ptime_date end_) (getDatesRange start end_) /\
  (forall d, In d (getDatesRange start end_) <->
             ptime_date start <= d < ptime_date end_) /\
  (ptime_date end_ <= ptime_date start -> getDatesRange start end_ = []).
Proof.
  assert (Hin : forall d, In d (getDatesRange start end_) <->
                          ptime_date start <= d < ptime_date end_).
  { intros d. rewrite getDatesRange_seqZ, <- list_elem_of_In, elem_of_seqZ.
    lia. }
  split; [|split; [|split]].
  - intros start' end' Hs He. unfold getDatesRange. now rewrite Hs, He.
  - rewrite Hin. lia.
  - exact Hin.
  - intros Hle. rewrite getDatesRange_seqZ. apply seqZ_nil. lia.
Qed.

(** An instance: a range inside the day 2010-09-10, whose end is strictly
    after midnight. *)
Lemma getDatesRange_only_dates_witness :
  let start := ptime_of (date_of_ymd 2010 9 10) (td 9 0 0) in
  let end_ := ptime_of (date_of_ymd 2010 9 10) (td 16 30 0) in
  getDatesRange (ptime_of (date_of_ymd 2010 9 10) 0) (end_ + 1)
  = getDatesRange start end_ /\
  ~ In (date_of_ymd 2010 9 10) (getDatesRange start end_) /\
  getDatesRange start end_ = [].
Proof.
  intros start end_.
  destruct (getDatesRange_only_dates start end_) as (Hdep & Hnot & _ & Hnil).
  split; [apply Hdep; reflexivity | split; [exact Hnot |]].
  apply Hnil. vm_compute. discriminate.
Defined.

End GetDatesRange.

(** ** BarSize: construction and comparison *)

Section BarSizeFacts.
Import timeUtils bar Comparison.

Lemma validateBarSize_Returned (d : time_duration) :
  d <= hours 24 -> validateBarSize d = Returned tt.
Proof.
  intros Hd. unfold validateBarSize.
  destruct (Z.gtb_spec d (hours 24)); [lia | reflexivity].
Qed.

Lemma validateBarSize_Thrown (d : time_duration) :
  hours 24 < d ->
  validateBarSize d
  = Thrown (invalid_argument "barSize must be less than 24 hours.").
Proof.
  intros Hd. unfold validateBarSize.
  destruct (Z.gtb_spec d (hours 24)); [reflexivity | lia].
Qed.

Lemma BarSize_new_Returned (d : time_duration) :
  d <= hours 24 -> BarSize_new d = Returned (mkBarSize d).
Proof.
  intros Hd. unfold BarSize_new. simpl.
  now rewrite validateBarSize_Returned.
Qed.

Lemma BarSize_new_Thrown (d : time_duration) :
  hours 24 < d ->
  BarSize_new d
  = Thrown (invalid_argument "barSize must be less than 24 hours.").
Proof.
  intros Hd. unfold BarSize_new. simpl.
  now rewrite validateBarSize_Thrown.
Qed.

(** The tests "BarSize constructors" of testBar.cpp. *)
Example BarSize_constructors_test :
  succeeds (BarSize_new (minutes 5)) /\
  succeeds (b ← BarSize_new (minutes 5); BarSize_copy b) /\
  throws (BarSize_new (hours 25)).
Proof. repeat split; eexists; reflexivity. Qed.

(** C4: a duration [d] with [0 < d <= 24h] constructs a [BarSize], which
    wraps [d] and compares equal to it; a duration above 24 hours makes the
    constructor throw [std::invalid_argument] (the InvalidBarSize
    failure). *)
Theorem BarSize_new_valid_roundtrip (d : time_duration) :
  (Spec.valid_duration d ->
   exists b, BarSize_new d = Returned b /\ barSize_ b = d /\
             operator_eq_duration b d = true) /\
  (hours 24 < d ->
   BarSize_new d
   = Thrown (invalid_argument "barSize must be less than 24 hours.")).
Proof.
  split.
  - intros [_ Hd]. exists (mkBarSize d).
    rewrite BarSize_new_Returned by exact Hd.
    unfold operator_eq_duration. simpl. rewrite Z.eqb_refl. auto.
  - apply BarSize_new_Thrown.
Qed.

(** Instances: five minutes is accepted, 25 hours is refused. *)
Lemma BarSize_new_valid_roundtrip_witness :
  (exists b, BarSize_new (minutes 5) = Returned b /\
             barSize_ b = minutes 5 /\
             operator_eq_duration b (minutes 5) = true) /\
  BarSize_new (hours 25)
  = Thrown (invalid_argument "barSize must be less than 24 hours.").
Proof.
  split.
  - apply (proj1 (BarSize_new_valid_roundtrip (minutes 5))).
    unfold Spec.valid_duration. vm_compute. split; [reflexivity | discriminate].
  - apply (proj2 (BarSize_new_valid_roundtrip (hours 25))).
    vm_compute. reflexivity.
Defined.

(** C9: a zero or negative duration constructs a [BarSize] although it
    breaks the invariant [0 < duration]: only the upper bound is checked,
    and the constructor throws exactly above 24 hours. *)
Theorem BarSize_new_nonpositive (d : time_duration) :
  d <= 0 ->
  BarSize_new d = Returned (mkBarSize d) /\
  ~ Spec.valid_duration d /\
  (forall d', throws (BarSize_new d') <-> hours 24 < d') /\
  (forall d', succeeds (BarSize_new d') <-> d' <= hours 24).
Proof.
  intros Hd. assert (H24 : 0 < hours 24) by reflexivity.
  split; [apply BarSize_new_Returned; lia|].
  split; [unfold Spec.valid_duration; lia|].
  split; intros d'.
  - destruct (Z_le_gt_dec d' (hours 24)) as [Hle|Hgt].
    + rewrite BarSize_new_Returned by exact Hle.
      split; [intros [e He]; discriminate | lia].
    + rewrite BarSize_new_Thrown by lia.
      split; [lia | intros _; eexists; reflexivity].
  - destruct (Z_le_gt_dec d' (hours 24)) as [Hle|Hgt].
    + rewrite BarSize_new_Returned by exact Hle.
      split; [lia | intros _; eexists; reflexivity].
    + rewrite BarSize_new_Thrown by lia.
      split; [intros [b Hb]; discriminate | lia].
Qed.

(** Instance: minus five seconds. *)
Lemma BarSize_new_nonpositive_witness :
  BarSize_new (seconds (-5)) = Returned (mkBarSize (seconds (-5))) /\
  ~ Spec.valid_duration (seconds (-5)).
Proof.
  destruct (BarSize_new_nonpositive (seconds (-5))) as (Hnew & Hinv & _).
  - vm_compute. discriminate.
  - split; [exact Hnew | exact Hinv].
Defined.

(** The test "BarSize comparison operators time_duraiton" of
    testBar.cpp. *)
Example BarSize_comparison_test :
  let targetBar := mkBarSize (hours 2) in
  operator_gt_duration targetBar (hours 1) = true /\
  operator_ge_duration targetBar (hours 2) = true /\
  operator_le_duration targetBar (hours 2) = true /\
  operator_lt_duration targetBar (hours 4) = true.
Proof. repeat split. Qed.

(** C8, as stated, fails in the right operand position: with a duration
    on the left, a [BarSize] cannot stand where its wrapped duration stands.
    [hours(1) < hours(2)] is true, and [hours(1) < BarSize(hours(2))] selects
    no operator, under every language standard. *)
Lemma BarSize_right_operand_counterexample :
  let b := mkBarSize (hours 2) in
  comparison false Lt (Duration (hours 1)) (Duration (barSize_ b)) = Some true /\
  comparison false Lt (Duration (hours 1)) (Size b) = None /\
  comparison true Lt (Duration (hours 1)) (Size b) = None /\
  comparison false Lt (Duration (hours 1)) (Size b)
  <> comparison false Lt (Duration (hours 1)) (Duration (barSize_ b)).
Proof. repeat split. discriminate. Qed.

(** C8 (amended): with the [BarSize] as left operand, every comparison
    ([<], [<=], [>], [>=], [==]) against a duration, and against another
    [BarSize], gives the result of the same comparison on the wrapped
    durations, so a [BarSize] stands for its duration as left operand, and
    as right operand when the left operand is a [BarSize].  With a duration
    as left operand and a [BarSize] as right operand the source declares no
    operator: [<], [<=], [>] and [>=] do not compile. *)
Theorem BarSize_comparison_operands (cxx20 : bool) (op : relop)
    (b other : BarSize) (d : time_duration) :
  (((operator_lt_duration b d = true <-> barSize_ b < d) /\
    (operator_le_duration b d = true <-> barSize_ b <= d) /\
    (operator_gt_duration b d = true <-> barSize_ b > d) /\
    (operator_ge_duration b d = true <-> barSize_ b >= d) /\
    (operator_eq_duration b d = true <-> barSize_ b = d)) /\
   ((operator_lt b other = true <-> barSize_ b < barSize_ other) /\
    (operator_le b other = true <-> barSize_ b <= barSize_ other) /\
    (operator_gt b other = true <-> barSize_ b > barSize_ other) /\
    (operator_ge b other = true <-> barSize_ b >= barSize_ other) /\
    (operator_eq b other = true <-> barSize_ b = barSize_ other)) /\
   (operator_lt b other = operator_lt_duration b (barSize_ other) /\
    operator_le b other = operator_le_duration b (barSize_ other) /\
    operator_gt b other = operator_gt_duration b (barSize_ other) /\
    operator_ge b other = operator_ge_duration b (barSize_ other) /\
    operator_eq b other = operator_eq_duration b (barSize_ other))) /\
  (comparison cxx20 op (Size b) (Duration d)
   = comparison cxx20 op (Duration (barSize_ b)) (Duration d) /\
   comparison cxx20 op (Size b) (Size other)
   = comparison cxx20 op (Duration (barSize_ b)) (Duration (barSize_ other)) /\
   comparison cxx20 op (Size b) (Size other)
   = comparison cxx20 op (Size b) (Duration (barSize_ other))) /\
  (comparison cxx20 Lt (Duration d) (Size other) = None /\
   comparison cxx20 Le (Duration d) (Size other) = None /\
   comparison cxx20 Gt (Duration d) (Size other) = None /\
   comparison cxx20 Ge (Duration d) (Size other) = None).
Proof.
  split; [|split].
  - unfold operator_lt_duration, operator_le_duration, operator_gt_duration,
      operator_ge_duration, operator_eq_duration, operator_lt, operator_le,
      operator_gt, operator_ge, operator_eq.
    rewrite !Z.ltb_lt, !Z.leb_le, !Z.gtb_gt, !Z.geb_ge, !Z.eqb_eq.
    tauto.
  - destruct op; repeat split.
  - repeat split.
Qed.

End BarSizeFacts.

(** ** BarSize: the string rendering *)

Section ToStringFacts.
Import timeUtils bar.

(** The tests "BarSize + operator with string" and "BarSize += operator
    with string" of testBar.cpp. *)
Example BarSize_plus_test :
  let baseStr := " time "%string in
  operator_plus (mkBarSize (seconds 1)) baseStr = "1 sec time "%string /\
  operator_plus_string baseStr (mkBarSize (seconds 5)) = " time 5 secs"%string /\
  operator_plus_assign baseStr (mkBarSize (minutes 5)) = " time 5 mins"%string.
Proof. repeat split. Qed.

(** Durations that are not a whole number of units: the count is
    truncated, and the unit word is plural unless the duration is exactly
    one unit. *)
Example toString_fractional :
  toString (mkBarSize (seconds 90)) = "1 mins"%string /\
  toString (mkBarSize 1500000) = "1 secs"%string /\
  toString (mkBarSize 500000) = "0 secs"%string /\
  toString (mkBarSize (minutes 90)) = "1 hours"%string.
Proof. repeat split. Qed.

(** C5: at each tier the equality test comes before the range test: one
    second, one minute and one hour render with the singular unit of their
    own tier, never as 60 units of the tier below; five seconds render as
    "5 secs" and 24 hours as "1 day". *)
Theorem toString_equality_first :
  (b ← BarSize_new (seconds 60); mret (toString b)) = Returned "1 min"%string /\
  (b ← BarSize_new (seconds 5); mret (toString b)) = Returned "5 secs"%string /\
  (b ← BarSize_new (hours 24); mret (toString b)) = Returned "1 day"%string /\
  toString (mkBarSize (seconds 60)) <> "60 secs"%string /\
  toString (mkBarSize (seconds 1)) = "1 sec"%string /\
  toString (mkBarSize (minutes 1)) = "1 min"%string /\
  toString (mkBarSize (minutes 60)) = "1 hour"%string /\
  toString (mkBarSize (hours 1)) = "1 hour"%string /\
  toString (mkBarSize (hours 24)) = "1 day"%string.
Proof. repeat split. vm_compute. discriminate. Qed.

Lemma counted_singular (unit : string) :
  Spec.counted 1 unit = String.append "1 " unit.
Proof.
  assert (Hnil : String.append unit "" = unit)
    by (induction unit as [|c u IH]; [reflexivity|];
        change (String c (String.append u "") = String c u); now rewrite IH).
  unfold Spec.counted. rewrite Z.eqb_refl, Hnil. reflexivity.
Qed.

Lemma counted_plural (n : Z) (unit : string) :
  n <> 1 ->
  Spec.counted n unit
  = String.append (to_string n) (String.append " " (String.append unit "s")).
Proof.
  intros Hn. unfold Spec.counted.
  destruct (Z.eqb_spec n 1); [contradiction | reflexivity].
Qed.

(** The fields read by [toString] on a whole number of units. *)
Lemma time_duration_seconds_whole (k : Z) :
  0 <= k < 60 -> time_duration_seconds (seconds k) = k.
Proof.
  intros Hk. unfold time_duration_seconds, seconds, ticks_per_second.
  rewrite Z.quot_mul by lia. apply Z.rem_small. lia.
Qed.

Lemma time_duration_minutes_whole (k : Z) :
  0 <= k < 60 -> time_duration_minutes (minutes k) = k.
Proof.
  intros Hk. unfold time_duration_minutes, minutes, ticks_per_second.
  rewrite Z.quot_mul by lia. apply Z.rem_small. lia.
Qed.

Lemma time_duration_hours_whole (k : Z) :
  time_duration_hours (hours k) = k.
Proof.
  unfold time_duration_hours, hours, ticks_per_second.
  apply Z.quot_mul. lia.
Qed.

(** A multiple of a unit is the unit's constructor at the quotient. *)
Lemma whole_seconds (d : time_duration) :
  d mod seconds 1 = 0 -> d = seconds (d / seconds 1).
Proof.
  unfold seconds, ticks_per_second. intros Hm.
  Z.to_euclidean_division_equations. lia.
Qed.

Lemma whole_minutes (d : time_duration) :
  d mod minutes 1 = 0 -> d = minutes (d / minutes 1).
Proof.
  unfold minutes, ticks_per_second. intros Hm.
  Z.to_euclidean_division_equations. lia.
Qed.

Lemma whole_hours (d : time_duration) :
  d mod hours 1 = 0 -> d = hours (d / hours 1).
Proof.
  unfold hours, ticks_per_second. intros Hm.
  Z.to_euclidean_division_equations. lia.
Qed.

(** C6 (the code at a failing input): 90 seconds is a valid bar size and
    one minute when counted in minutes, so its canonical form is "1 min";
    [toString] tests for exactly one minute before it chooses the singular,
    and renders 90 seconds as "1 mins". *)
Theorem toString_ninety_seconds_plural :
  Spec.valid_duration (seconds 90) /\
  BarSize_new (seconds 90) = Returned (mkBarSize (seconds 90)) /\
  seconds 90 / minutes 1 = 1 /\
  Spec.canonical_label (seconds 90) = "1 min"%string /\
  toString (mkBarSize (seconds 90)) = "1 mins"%string /\
  toString (mkBarSize (seconds 90)) <> Spec.canonical_label (seconds 90).
Proof.
  unfold Spec.valid_duration.
  repeat split; vm_compute; discriminate.
Qed.

(** The fields read by [toString] are the duration counted in whole units
    and rounded down. *)
Lemma time_duration_seconds_floor (d : time_duration) :
  0 <= d < minutes 1 -> time_duration_seconds d = d / seconds 1.
Proof.
  unfold time_duration_seconds, seconds, minutes, ticks_per_second.
  intros Hd. Z.to_euclidean_division_equations. lia.
Qed.

Lemma time_duration_minutes_floor (d : time_duration) :
  0 <= d < hours 1 -> time_duration_minutes d = d / minutes 1.
Proof.
  unfold time_duration_minutes, minutes, hours, ticks_per_second.
  intros Hd. Z.to_euclidean_division_equations. lia.
Qed.

Lemma time_duration_hours_floor (d : time_duration) :
  0 <= d -> time_duration_hours d = d / hours 1.
Proof.
  unfold time_duration_hours, hours, ticks_per_second.
  intros Hd. Z.to_euclidean_division_equations. lia.
Qed.

Lemma count_one (d u : Z) : 0 < u -> (d / u = 1 <-> u <= d < 2 * u).
Proof. intros Hu. Z.to_euclidean_division_equations. nia. Qed.

Lemma counted_one_differs (unit : string) :
  String.append (to_string 1) (String.append " " (String.append unit "s"))
  <> Spec.counted 1 unit.
Proof.
  rewrite counted_singular. intros Heq.
  change (String "1" (String " " (String.append unit "s"))
          = String "1" (String " " unit)) in Heq.
  injection Heq as Heq. apply (f_equal String.length) in Heq.
  revert Heq. clear. induction unit as [|c u IH]; simpl; [discriminate|].
  intros [= Heq]. auto.
Qed.

(** The extent of the defect of C6: on a valid bar size the rendering is
    the canonical form exactly when the duration is not strictly between one
    and two units of its tier. *)
Lemma toString_canonical_iff (b : BarSize) :
  Spec.valid_duration (barSize_ b) ->
  (toString b = Spec.canonical_label (barSize_ b) <->
   ~ (seconds 1 < barSize_ b < seconds 2 \/
      minutes 1 < barSize_ b < minutes 2 \/
      hours 1 < barSize_ b < hours 2)).
Proof.
  destruct b as [d]. unfold Spec.valid_duration, Spec.canonical_label, toString.
  simpl barSize_. intros [Hpos H24].
  assert (Hs1 : seconds 1 = 1000000) by reflexivity.
  assert (Hs2 : seconds 2 = 2000000) by reflexivity.
  assert (Hm1 : minutes 1 = 60000000) by reflexivity.
  assert (Hm2 : minutes 2 = 120000000) by reflexivity.
  assert (Hh1 : hours 1 = 3600000000) by reflexivity.
  assert (Hh2 : hours 2 = 7200000000) by reflexivity.
  assert (Hh24 : hours 24 = 86400000000) by reflexivity.
  destruct (Z.ltb_spec d (minutes 1)) as [H1|H1].
  { rewrite time_duration_seconds_floor by lia.
    pose proof (count_one d (seconds 1) ltac:(lia)) as Hk.
    destruct (Z.eqb_spec d (seconds 1)) as [He|He].
    - rewrite He. split; [intros _; lia | reflexivity].
    - destruct (Z.eq_dec (d / seconds 1) 1) as [Hone|Hone].
      + rewrite Hone.
        split; [intros Heq; destruct (counted_one_differs "sec" Heq)|].
        intros Hw. exfalso. apply Hw. lia.
      + rewrite counted_plural by exact Hone.
        split; [intros _; lia | reflexivity]. }
  destruct (Z.eqb_spec d (seconds 1)) as [He|_]; [lia|].
  destruct (Z.ltb_spec d (hours 1)) as [H2|H2].
  { rewrite time_duration_minutes_floor by lia.
    pose proof (count_one d (minutes 1) ltac:(lia)) as Hk.
    destruct (Z.eqb_spec d (minutes 1)) as [He|He].
    - rewrite He. split; [intros _; lia | reflexivity].
    - destruct (Z.eq_dec (d / minutes 1) 1) as [Hone|Hone].
      + rewrite Hone.
        split; [intros Heq; destruct (counted_one_differs "min" Heq)|].
        intros Hw. exfalso. apply Hw. lia.
      + rewrite counted_plural by exact Hone.
        split; [intros _; lia | reflexivity]. }
  destruct (Z.eqb_spec d (minutes 1)) as [He|_]; [lia|].
  destruct (Z.ltb_spec d (hours 24)) as [H3|H3].
  { rewrite time_duration_hours_floor by lia.
    pose proof (count_one d (hours 1) ltac:(lia)) as Hk.
    destruct (Z.eqb_spec d (hours 1)) as [He|He].
    - rewrite He. split; [intros _; lia | reflexivity].
    - destruct (Z.eq_dec (d / hours 1) 1) as [Hone|Hone].
      + rewrite Hone.
        split; [intros Heq; destruct (counted_one_differs "hour" Heq)|].
        intros Hw. exfalso. apply Hw. lia.
      + rewrite counted_plural by exact Hone.
        split; [intros _; lia | reflexivity]. }
  destruct (Z.eqb_spec d (hours 1)) as [He|_]; [lia|].
  split; [intros _; lia | reflexivity].
Qed.

End ToStringFacts.

(** ** BarData *)

Section BarDataFacts.
Import timeUtils bar.
Context {double : Type}.
Implicit Types (this : BarData double) (b : Bar double).

(** The test "BarData size" of testBar.cpp: a new series is empty. *)
Lemma BarData_new_size (d : time_duration) this :
  BarData_new d = Returned this -> BarData_size this = 0%nat.
Proof.
  unfold BarData_new. destruct (BarSize_new d) as [bs|e|]; simpl; try discriminate.
  intros [= <-]. unfold BarData_size. simpl. apply map_size_empty.
Qed.

(** The test "BarData addBar": one insertion into an empty series. *)
Lemma addBar_size_fresh this b :
  bars this !! dateTime b = None ->
  BarData_size (addBar this b) = S (BarData_size this).
Proof. intros Hf. unfold BarData_size, addBar. simpl. now apply map_size_insert_None. Qed.

Lemma addBar_lookup this b : bars (addBar this b) !! dateTime b = Some b.
Proof. unfold addBar. simpl. apply lookup_insert_eq. Qed.

Lemma addBar_lookup_other this b (t : ptime) :
  t <> dateTime b -> bars (addBar this b) !! t = bars this !! t.
Proof. intros Ht. unfold addBar. simpl. now apply lookup_insert_ne. Qed.

(** Inserting never changes the bar size of the series. *)
Lemma addBar_barSize this b : barSize (addBar this b) = barSize this.
Proof. reflexivity. Qed.

(** C7: after [addBar b1] and then [addBar b2] with the timestamp of
    [b1], the series is the one [addBar b2] alone gives: the bar at that
    timestamp is [b2], no other bar sits at it (timestamps are not
    duplicated), the other timestamps are untouched, and [size] counts that
    timestamp once, so it is 1 on a series that was empty. *)
Theorem addBar_last_write_wins this b1 b2 :
  dateTime b1 = dateTime b2 ->
  let series := addBar (addBar this b1) b2 in
  series = addBar this b2 /\
  bars series !! dateTime b2 = Some b2 /\
  (forall b, (dateTime b2, b) ∈ map_to_list (bars series) <-> b = b2) /\
  NoDup (fst <$> map_to_list (bars series)) /\
  (forall t : ptime, t <> dateTime b2 -> bars series !! t = bars this !! t) /\
  BarData_size series = S (size (delete (dateTime b2) (bars this))) /\
  (bars this = ∅ -> BarData_size series = 1%nat).
Proof.
  intros Ht series.
  assert (Hs : series = addBar this b2).
  { subst series. unfold addBar. simpl. rewrite Ht.
    now rewrite insert_insert_eq. }
  assert (Hsize : BarData_size series
                  = S (size (delete (dateTime b2) (bars this)))).
  { rewrite Hs. unfold BarData_size, addBar. simpl.
    rewrite <- insert_delete_eq.
    apply map_size_insert_None, lookup_delete_eq. }
  split; [exact Hs|]. rewrite Hs.
  split; [apply addBar_lookup|].
  split; [|split; [|split; [|split]]].
  - intros b. rewrite elem_of_map_to_list, addBar_lookup. split; congruence.
  - apply NoDup_fst_map_to_list.
  - intros t Hne. now apply addBar_lookup_other.
  - now rewrite <- Hs.
  - intros He. rewrite <- Hs, Hsize, He, delete_empty. now rewrite map_size_empty.
Qed.

End BarDataFacts.

(** Instance: two bars at the same instant put into an empty five-minute
    series. *)
Lemma addBar_last_write_wins_witness :
  let t := timeUtils.ptime_of (timeUtils.date_of_ymd 2020 3 30) (timeUtils.td 9 0 0) in
  let b1 := bar.mkBar t 180 179 179 179 179 12341234 10 in
  let b2 := bar.mkBar t 181 178 179 180 179 50 2 in
  let this := bar.mkBarData (double := Z) ∅ (bar.mkBarSize (timeUtils.minutes 5)) in
  bar.bars (bar.addBar (bar.addBar this b1) b2) !! t = Some b2 /\
  bar.BarData_size (bar.addBar (bar.addBar this b1) b2) = 1%nat.
Proof.
  intros t b1 b2 this.
  destruct (addBar_last_write_wins this b1 b2) as (_ & Hl & _ & _ & _ & _ & Hs).
  - reflexivity.
  - split; [exact Hl | apply Hs; reflexivity].
Defined.

(** ** retrieveBarData *)

Section Retrieval.
Import timeUtils bar histRetriever.
Context {double : Type}.

(** The intraday branch of [getFilePaths] throws [std::logic_error] (the
    NotImplemented failure) for every bar size below 24 hours. *)
Lemma getFilePaths_intraday_throws (symbol : string)
    (startDateTime endDateTime : ptime) (barSize : BarSize) :
  operator_lt_duration barSize (hours 24) = true ->
  getFilePaths symbol startDateTime endDateTime barSize
  = Thrown (logic_error
      "Retrieving intraday historical bar data is not yer implemented.").
Proof.
  unfold operator_lt_duration, getFilePaths, operator_ge_duration.
  intros Hlt%Z.ltb_lt.
  destruct (Z.geb_spec (barSize_ barSize) (hours 24)); [lia | reflexivity].
Qed.

(** The daily branch of [getFilePaths] returns nothing either. *)
Lemma getFilePaths_daily_no_return (symbol : string)
    (startDateTime endDateTime : ptime) (barSize : BarSize) :
  operator_ge_duration barSize (hours 24) = true ->
  getFilePaths symbol startDateTime endDateTime barSize = FellOffEnd.
Proof. unfold getFilePaths. now intros ->. Qed.

(** [retrieveBarData] runs no statement, whatever the request. *)
Lemma retrieveBarData_empty_body (symbol : string)
    (startDateTime endDateTime : ptime) (barSize : BarSize)
    (includeAfterHours searchCache storeToCache : bool)
    (log : list io_event) :
  retrieveBarData (double := double) symbol startDateTime endDateTime barSize
    includeAfterHours searchCache storeToCache log
  = (FellOffEnd, log).
Proof. reflexivity. Qed.

(** C1 (the code at a failing input): for the five-minute request of SPY
    from 2020-03-30 09:00 to 2020-04-03 16:30, [getFilePaths] would throw
    the not-implemented [std::logic_error], but [retrieveBarData] never
    calls it: nothing is thrown and no [BarData] is returned. *)
Theorem retrieveBarData_intraday_not_refused :
  let startDateTime := ptime_of (date_of_ymd 2020 3 30) (td 9 0 0) in
  let endDateTime := ptime_of (date_of_ymd 2020 4 3) (td 16 30 0) in
  let barSize := mkBarSize (minutes 5) in
  let result := retrieveBarData (double := Z) "SPY" startDateTime
                  endDateTime barSize false true true [] in
  BarSize_new (minutes 5) = Returned barSize /\
  operator_lt_duration barSize (hours 24) = true /\
  getFilePaths "SPY" startDateTime endDateTime barSize
  = Thrown (logic_error
      "Retrieving intraday historical bar data is not yer implemented.") /\
  result.1 = FellOffEnd /\
  ~ throws result.1.
Proof.
  repeat split. intros [e He]. discriminate.
Qed.

(** C2 (the code at a failing input): the daily request of SPY whose
    start and end coincide, and the one whose start is after its end, are not
    refused: the empty body of [retrieveBarData] compares no instants, throws
    nothing and returns no [BarData] (the defect of C1). *)
Theorem retrieveBarData_reversed_range_not_refused :
  let t := ptime_of (date_of_ymd 2020 3 30) (td 9 0 0) in
  let barSize := mkBarSize (hours 24) in
  let same := retrieveBarData (double := Z) "SPY" t t barSize
                false true true [] in
  let reversed := retrieveBarData (double := Z) "SPY" (t + 1) t barSize
                    false true true [] in
  BarSize_new (hours 24) = Returned barSize /\
  t >= t /\ t + 1 >= t /\
  same.1 = FellOffEnd /\ ~ throws same.1 /\
  reversed.1 = FellOffEnd /\ ~ throws reversed.1.
Proof.
  repeat split; try (vm_compute; congruence); intros [e He]; discriminate.
Qed.

End Retrieval.


(** * Further properties of the sources *)

(** ** getDatesRange on dates and on instants *)

Section GetDatesRangeMore.
Import timeUtils.

(** The date overload returns exactly the dates [d] with
    [start <= d < end_], each once and in ascending order: the entry at
    index [i] is [start + i], and there are [end_ - start] entries (none when
    [end_ <= start]). *)
Theorem getDatesRange_date_exact (start end_ : date) :
  (forall d, In d (getDatesRange_date start end_) <-> start <= d < end_) /\
  NoDup (getDatesRange_date start end_) /\
  StronglySorted Z.lt (getDatesRange_date start end_) /\
  length (getDatesRange_date start end_) = Z.to_nat (end_ - start) /\
  (forall i : nat, getDatesRange_date start end_ !! i
     = if decide (Z.of_nat i < end_ - start) then Some (start + Z.of_nat i)
       else None) /\
  (getDatesRange_date start end_ = [] <-> end_ <= start).
Proof.
  rewrite getDatesRange_date_seqZ.
  split; [|split; [|split; [|split; [|split]]]].
  - intros d. rewrite <- list_elem_of_In, elem_of_seqZ. lia.
  - apply NoDup_seqZ.
  - apply seqZ_StronglySorted.
  - apply length_seqZ.
  - intros i. case_decide.
    + now apply lookup_seqZ_lt.
    + apply lookup_seqZ_ge. lia.
  - split.
    + intros Hnil. apply (f_equal length) in Hnil.
      rewrite length_seqZ in Hnil. simpl in Hnil. lia.
    + intros Hle. apply seqZ_nil. lia.
Qed.

(** Two adjacent ranges concatenate to the range over both. *)
Theorem getDatesRange_date_app (start mid end_ : date) :
  start <= mid -> mid <= end_ ->
  getDatesRange_date start mid ++ getDatesRange_date mid end_
  = getDatesRange_date start end_.
Proof.
  intros H1 H2. rewrite !getDatesRange_date_seqZ.
  replace (end_ - start) with ((mid - start) + (end_ - mid)) by lia.
  rewrite seqZ_app by lia. do 2 f_equal. lia.
Qed.

Lemma getDatesRange_date_app_witness :
  getDatesRange_date (date_of_ymd 2010 9 10) (date_of_ymd 2010 9 15)
  ++ getDatesRange_date (date_of_ymd 2010 9 15) (date_of_ymd 2010 9 20)
  = getDatesRange_date (date_of_ymd 2010 9 10) (date_of_ymd 2010 9 20).
Proof.
  apply (getDatesRange_date_app (date_of_ymd 2010 9 10)
           (date_of_ymd 2010 9 15) (date_of_ymd 2010 9 20));
    vm_compute; discriminate.
Defined.

(** The two overloads agree: on instants built from the dates [d1] and
    [d2] with any times of day, the instant overload gives the result of the
    date overload on [d1] and [d2]. *)
Theorem getDatesRange_overloads_agree (d1 d2 : date) (t1 t2 : time_duration) :
  0 <= d1 -> 0 <= d2 ->
  0 <= t1 < ticks_per_day -> 0 <= t2 < ticks_per_day ->
  getDatesRange (ptime_of d1 t1) (ptime_of d2 t2) = getDatesRange_date d1 d2.
Proof.
  intros Hd1 Hd2 Ht1 Ht2. unfold getDatesRange.
  now rewrite !ptime_date_of.
Qed.

Lemma getDatesRange_overloads_agree_witness :
  getDatesRange (ptime_of (date_of_ymd 2020 3 30) (td 9 0 0))
                (ptime_of (date_of_ymd 2020 4 3) (td 16 30 0))
  = getDatesRange_date (date_of_ymd 2020 3 30) (date_of_ymd 2020 4 3).
Proof.
  apply (getDatesRange_overloads_agree (date_of_ymd 2020 3 30)
           (date_of_ymd 2020 4 3) (td 9 0 0) (td 16 30 0));
    vm_compute; (discriminate || (split; [discriminate | reflexivity])).
Defined.

(** Moving the end later only appends dates: the result for the earlier
    end is a prefix of the result for the later end. *)
Theorem getDatesRange_prefix_mono (start end_ end' : ptime) :
  end_ <= end' ->
  getDatesRange start end_ `prefix_of` getDatesRange start end'.
Proof.
  intros Hle. rewrite !getDatesRange_seqZ.
  pose proof (ptime_date_mono end_ end' Hle) as Hd.
  destruct (Z_le_gt_dec (ptime_date end_) (ptime_date start)) as [Hs|Hs].
  - rewrite (seqZ_nil _ (ptime_date end_ - ptime_date start)) by lia.
    apply prefix_nil.
  - replace (ptime_date end' - ptime_date start)
      with ((ptime_date end_ - ptime_date start)
            + (ptime_date end' - ptime_date end_)) by lia.
    rewrite seqZ_app by lia. now apply prefix_app_r.
Qed.

Lemma getDatesRange_prefix_mono_witness :
  getDatesRange (ptime_of (date_of_ymd 2010 9 10) 0)
                (ptime_of (date_of_ymd 2010 9 15) (td 12 0 0))
  `prefix_of`
  getDatesRange (ptime_of (date_of_ymd 2010 9 10) 0)
                (ptime_of (date_of_ymd 2010 9 20) 0).
Proof.
  apply (getDatesRange_prefix_mono (ptime_of (date_of_ymd 2010 9 10) 0)
           (ptime_of (date_of_ymd 2010 9 15) (td 12 0 0))
           (ptime_of (date_of_ymd 2010 9 20) 0)).
  vm_compute. discriminate.
Defined.

(** For well-formed instants [start < end_], the days that hold an instant
    of [[start, end_)] are the dates of the result, and in addition the date
    of [end_] when [end_] lies strictly inside its day: the result never
    names a day outside the range, and misses at most that last day. *)
Theorem getDatesRange_spanned (start end_ : ptime) (d : date) :
  0 <= start -> start < end_ ->
  ((exists t, start <= t < end_ /\ ptime_date t = d) <->
   In d (getDatesRange start end_) \/
   (d = ptime_date end_ /\ ~ Spec.on_day_boundary end_)).
Proof.
  intros H0 Hlt. rewrite spanned_days_covers by lia.
  rewrite getDatesRange_seqZ, <- list_elem_of_In, elem_of_seqZ.
  pose proof (ptime_date_mono start end_ ltac:(lia)) as Hm.
  destruct (Z.eq_dec (time_of_day end_) 0) as [Hb|Hb].
  - rewrite ptime_date_before_boundary by (lia || exact Hb).
    unfold Spec.on_day_boundary. split; [intros; left; lia|].
    intros [?|[_ Hn]]; [lia | contradiction].
  - rewrite ptime_date_inside_day by (lia || exact Hb).
    unfold Spec.on_day_boundary. split; [|intros [?|[-> _]]; lia].
    intros Hd. destruct (Z.eq_dec d (ptime_date end_)); [right | left]; auto with lia.
Qed.

Lemma getDatesRange_spanned_witness :
  let start := ptime_of (date_of_ymd 2020 3 30) (td 9 0 0) in
  let end_ := ptime_of (date_of_ymd 2020 4 3) (td 16 30 0) in
  (exists t, start <= t < end_ /\ ptime_date t = date_of_ymd 2020 4 3) <->
  In (date_of_ymd 2020 4 3) (getDatesRange start end_) \/
  (date_of_ymd 2020 4 3 = ptime_date end_ /\ ~ Spec.on_day_boundary end_).
Proof.
  intros start end_.
  apply (getDatesRange_spanned start end_ (date_of_ymd 2020 4 3));
    vm_compute; (discriminate || reflexivity).
Defined.

End GetDatesRangeMore.

(** ** BarSize: what the constructors guarantee, and the order *)

Section BarSizeMore.
Import timeUtils bar.

(** A [BarSize] that a constructor returned wraps the given duration, is at
    most 24 hours, can always be copied (the copy is equal to it), and
    always builds an empty [BarData]. *)
Theorem BarSize_new_invariant {double : Type} (d : time_duration) (b : BarSize) :
  BarSize_new d = Returned b ->
  barSize_ b = d /\
  operator_le_duration b (hours 24) = true /\
  BarSize_copy b = Returned b /\
  BarData_of_BarSize (double := double) b = Returned (mkBarData ∅ b).
Proof.
  intros Hnew. destruct (Z_le_gt_dec d (hours 24)) as [Hle|Hgt];
    [|rewrite BarSize_new_Thrown in Hnew by lia; discriminate].
  rewrite BarSize_new_Returned in Hnew by exact Hle.
  injection Hnew as <-. simpl.
  assert (Hcopy : BarSize_copy (mkBarSize d) = Returned (mkBarSize d)).
  { unfold BarSize_copy. simpl. now rewrite validateBarSize_Returned. }
  split; [reflexivity|]. split.
  - unfold operator_le_duration. simpl. now apply Z.leb_le.
  - split; [exact Hcopy|]. unfold BarData_of_BarSize. now rewrite Hcopy.
Qed.

Lemma BarSize_new_invariant_witness :
  BarSize_copy (mkBarSize (minutes 5)) = Returned (mkBarSize (minutes 5)) /\
  BarData_of_BarSize (double := Z) (mkBarSize (minutes 5))
  = Returned (mkBarData ∅ (mkBarSize (minutes 5))).
Proof.
  destruct (BarSize_new_invariant (double := Z) (minutes 5)
              (mkBarSize (minutes 5))) as (_ & _ & Hc & Hd).
  - reflexivity.
  - split; [exact Hc | exact Hd].
Defined.

(** The comparison operators form a total order on [BarSize] values:
    [==] holds exactly for equal values, exactly one of [<], [==], [>]
    holds, [>] and [>=] are [<] and [<=] with the operands exchanged, and
    [<=] is "not [>]" and "[<] or [==]". *)
Theorem BarSize_order_total (b other : BarSize) :
  (operator_eq b other = true <-> b = other) /\
  ((operator_lt b other = true /\ operator_eq b other = false /\
    operator_gt b other = false) \/
   (operator_lt b other = false /\ operator_eq b other = true /\
    operator_gt b other = false) \/
   (operator_lt b other = false /\ operator_eq b other = false /\
    operator_gt b other = true)) /\
  operator_gt b other = operator_lt other b /\
  operator_ge b other = operator_le other b /\
  operator_le b other = negb (operator_gt b other) /\
  operator_le b other = operator_lt b other || operator_eq b other.
Proof.
  destruct b as [x], other as [y].
  unfold operator_eq, operator_lt, operator_gt, operator_le, operator_ge.
  simpl. rewrite Z.gtb_ltb, Z.geb_leb.
  split; [rewrite Z.eqb_eq; split; [now intros -> | now intros [= ->]]|].
  destruct (Z.ltb_spec x y), (Z.eqb_spec x y), (Z.ltb_spec y x),
    (Z.leb_spec x y), (Z.leb_spec y x); simpl; try lia; tauto.
Qed.

(** [<] and [<=] are transitive, also through a duration operand. *)
Theorem BarSize_order_trans (a b c : BarSize) (d : time_duration) :
  (operator_lt a b = true -> operator_lt b c = true ->
   operator_lt a c = true) /\
  (operator_le a b = true -> operator_le b c = true ->
   operator_le a c = true) /\
  (operator_le a b = true -> operator_lt_duration b d = true ->
   operator_lt_duration a d = true) /\
  (operator_le a b = true -> operator_le b a = true -> a = b).
Proof.
  destruct a as [x], b as [y], c as [z].
  unfold operator_lt, operator_le, operator_lt_duration. simpl.
  rewrite !Z.ltb_lt, !Z.leb_le.
  repeat split; try lia. intros. f_equal. lia.
Qed.

Lemma BarSize_order_trans_witness :
  operator_lt (mkBarSize (seconds 5)) (mkBarSize (hours 1)) = true /\
  operator_lt_duration (mkBarSize (seconds 5)) (hours 24) = true.
Proof.
  destruct (BarSize_order_trans (mkBarSize (seconds 5)) (mkBarSize (minutes 5))
              (mkBarSize (hours 1)) (hours 24)) as (Hlt & _ & Hd & _).
  split; [apply Hlt; reflexivity | apply Hd; reflexivity].
Defined.

End BarSizeMore.

(** ** BarSize: the labels as cache folder names *)

Section LabelFacts.
Import timeUtils bar Label.

Lemma append_cons (c : ascii) (s r : string) :
  String.append (String c s) r = String c (String.append s r).
Proof. reflexivity. Qed.

Lemma append_empty (r : string) : String.append "" r = r.
Proof. reflexivity. Qed.

(** The numeral of [std::to_string] determines the number. *)
Lemma to_string_inj (m n : Z) : to_string m = to_string n -> m = n.
Proof.
  unfold to_string. intros Heq. apply DecimalZ.to_int_inj.
  assert (Hparse : forall z, NilZero.int_of_string
                     (NilZero.string_of_int (Z.to_int z)) = Some (Z.to_int z)).
  { intros z. apply NilZero.isi; destruct z as [|p|p]; simpl;
      try discriminate; intros [= Hp];
      exact (DecimalPos.Unsigned.to_uint_nonnil p Hp). }
  pose proof (Hparse m) as Hm. rewrite Heq, Hparse in Hm. congruence.
Qed.

Lemma string_of_uint_no_space (d : Decimal.uint) :
  ~ In " "%char (list_ascii_of_string (NilEmpty.string_of_uint d)).
Proof.
  induction d; simpl; [intros [] | intros [Hc|Hin]; [discriminate | auto] ..].
Qed.

(** The numeral holds no space. *)
Lemma to_string_no_space (n : Z) :
  ~ In " "%char (list_ascii_of_string (to_string n)).
Proof.
  assert (Hu : forall d, ~ In " "%char
                 (list_ascii_of_string (NilZero.string_of_uint d))).
  { intros d. destruct d; try apply string_of_uint_no_space.
    simpl. intros [Hc|[]]. discriminate. }
  unfold to_string. destruct (Z.to_int n) as [d|d]; simpl.
  - apply Hu.
  - intros [Hc|Hin]; [discriminate | now apply (Hu d)].
Qed.

(** Two strings cut at their first space agree part by part. *)
Lemma append_space_inj (s1 s2 r1 r2 : string) :
  ~ In " "%char (list_ascii_of_string s1) ->
  ~ In " "%char (list_ascii_of_string s2) ->
  String.append s1 (String " " r1) = String.append s2 (String " " r2) ->
  s1 = s2 /\ r1 = r2.
Proof.
  revert s2. induction s1 as [|c s1 IH]; intros [|c2 s2] Hn1 Hn2;
    rewrite ?append_cons, ?append_empty; intros Heq.
  - injection Heq as ->. auto.
  - injection Heq as <- _. exfalso. apply Hn2. simpl. auto.
  - injection Heq as -> _. exfalso. apply Hn1. simpl. auto.
  - injection Heq as -> Hr.
    destruct (IH s2) as [-> ->]; simpl in *; auto.
Qed.

Lemma word_inj (u v : unit_word) : word u = word v -> u = v.
Proof. destruct u, v; simpl; intros [=]; reflexivity. Qed.

(** A label determines its count and its unit word. *)
Lemma render_inj (k k' : Z) (u u' : unit_word) :
  render k u = render k' u' -> k = k' /\ u = u'.
Proof.
  unfold render. intros Heq.
  apply append_space_inj in Heq as [Hk Hw]; try apply to_string_no_space.
  split; [now apply to_string_inj | now apply word_inj].
Qed.

(** Every label is a count and a unit word; the word is "day" only from 24
    hours on. *)
Lemma toString_render (b : BarSize) :
  exists k u, toString b = render k u /\
              (u = Day <-> hours 24 <= barSize_ b).
Proof.
  destruct b as [d]. unfold toString. simpl barSize_.
  assert (H1 : seconds 1 < minutes 1) by reflexivity.
  assert (H2 : minutes 1 < hours 1) by reflexivity.
  assert (H3 : hours 1 < hours 24) by reflexivity.
  destruct (Z.eqb_spec d (seconds 1));
    [exists 1, Sec; split; [reflexivity | split; [discriminate | lia]]|].
  destruct (Z.ltb_spec d (minutes 1));
    [exists (time_duration_seconds d), Secs;
     split; [reflexivity | split; [discriminate | lia]]|].
  destruct (Z.eqb_spec d (minutes 1));
    [exists 1, Min; split; [reflexivity | split; [discriminate | lia]]|].
  destruct (Z.ltb_spec d (hours 1));
    [exists (time_duration_minutes d), Mins;
     split; [reflexivity | split; [discriminate | lia]]|].
  destruct (Z.eqb_spec d (hours 1));
    [exists 1, Hour; split; [reflexivity | split; [discriminate | lia]]|].
  destruct (Z.ltb_spec d (hours 24));
    [exists (time_duration_hours d), Hours;
     split; [reflexivity | split; [discriminate | lia]]|].
  exists 1, Day. split; [reflexivity | split; [lia | reflexivity]].
Qed.

(** On a valid duration that is a whole number of units, the label is the
    number of units and a word of that unit. *)
Lemma toString_whole_render (d : time_duration) :
  Spec.valid_duration d -> Spec.whole_units d ->
  exists k u, toString (mkBarSize d) = render k u /\ d = k * ticks u.
Proof.
  unfold Spec.valid_duration, Spec.whole_units, toString. simpl barSize_.
  intros [Hpos H24] Hw.
  destruct (Z.eqb_spec d (seconds 1)) as [->|Hs];
    [exists 1, Sec; split; reflexivity|].
  destruct (Z.ltb_spec d (minutes 1)) as [H1|H1].
  { apply whole_seconds in Hw. set (k := d / seconds 1) in *.
    exists k, Secs. split; [|simpl; unfold seconds in *; lia].
    rewrite Hw, time_duration_seconds_whole; [reflexivity|].
    revert Hpos H1. rewrite Hw. unfold seconds, minutes, ticks_per_second. lia. }
  destruct (Z.eqb_spec d (minutes 1)) as [->|Hm];
    [exists 1, Min; split; reflexivity|].
  destruct (Z.ltb_spec d (hours 1)) as [H2|H2].
  { apply whole_minutes in Hw. set (k := d / minutes 1) in *.
    exists k, Mins. split; [|simpl; unfold minutes in *; lia].
    rewrite Hw, time_duration_minutes_whole; [reflexivity|].
    revert H1 H2. rewrite Hw. unfold minutes, hours, ticks_per_second. lia. }
  destruct (Z.eqb_spec d (hours 1)) as [->|Hh];
    [exists 1, Hour; split; reflexivity|].
  destruct (Z.ltb_spec d (hours 24)) as [H3|H3].
  { apply whole_hours in Hw. set (k := d / hours 1) in *.
    exists k, Hours. split; [|simpl; unfold hours in *; lia].
    rewrite Hw, time_duration_hours_whole. reflexivity. }
  exists 1, Day. split; [reflexivity | simpl; lia].
Qed.

Lemma ticks_same_unit (u u' : unit_word) : u = u' -> ticks u = ticks u'.
Proof. now intros ->. Qed.

(** Valid bar sizes of a whole number of units have distinct labels, so
    each gets a cache folder of its own. *)
Theorem toString_inj_whole_units (b b' : BarSize) :
  Spec.valid_duration (barSize_ b) -> Spec.whole_units (barSize_ b) ->
  Spec.valid_duration (barSize_ b') -> Spec.whole_units (barSize_ b') ->
  toString b = toString b' -> b = b'.
Proof.
  destruct b as [d], b' as [d']. simpl. intros Hv Hw Hv' Hw' Heq.
  destruct (toString_whole_render d Hv Hw) as (k & u & Hr & Hd).
  destruct (toString_whole_render d' Hv' Hw') as (k' & u' & Hr' & Hd').
  rewrite Hr, Hr' in Heq. apply render_inj in Heq as [-> ->].
  f_equal. congruence.
Qed.

Lemma toString_inj_whole_units_witness :
  mkBarSize (minutes 5) = mkBarSize (seconds 300).
Proof.
  apply (toString_inj_whole_units (mkBarSize (minutes 5))
           (mkBarSize (seconds 300)));
    unfold Spec.valid_duration; vm_compute;
    try (split; congruence); reflexivity.
Defined.

(** Among the bar sizes a constructor accepts, the label is "1 day" for
    exactly 24 hours and for nothing else. *)
Theorem toString_one_day_iff (b : BarSize) :
  barSize_ b <= hours 24 ->
  (toString b = "1 day"%string <-> barSize_ b = hours 24).
Proof.
  intros Hle. split.
  - intros Heq. destruct (toString_render b) as (k & u & Hr & Hday).
    rewrite Hr in Heq. change "1 day"%string with (render 1 Day) in Heq.
    apply render_inj in Heq as [_ ->].
    destruct Hday as [Hday _]. specialize (Hday eq_refl). lia.
  - destruct b as [d]. simpl. intros ->. reflexivity.
Qed.

Lemma toString_one_day_iff_witness :
  toString (mkBarSize (hours 23)) = "1 day"%string <-> hours 23 = hours 24.
Proof.
  apply (toString_one_day_iff (mkBarSize (hours 23))).
  vm_compute. discriminate.
Defined.

(** On a non-negative duration the printed number is the duration counted
    in whole units of its tier, rounded down: seconds below one minute,
    minutes below one hour, hours below 24 hours; the word is plural unless
    the duration is exactly one unit, and from 24 hours on the label is
    "1 day".  So all durations of a tier with the same rounded count share a
    label. *)
Theorem toString_truncated_count (d : time_duration) :
  0 <= d ->
  (d < minutes 1 -> d <> seconds 1 ->
   toString (mkBarSize d) = render (d / seconds 1) Secs) /\
  (minutes 1 < d < hours 1 ->
   toString (mkBarSize d) = render (d / minutes 1) Mins) /\
  (hours 1 < d < hours 24 ->
   toString (mkBarSize d) = render (d / hours 1) Hours) /\
  (hours 24 <= d -> toString (mkBarSize d) = render 1 Day).
Proof.
  intros Hpos. unfold toString. simpl barSize_.
  assert (H1 : seconds 1 < minutes 1) by reflexivity.
  assert (H2 : minutes 1 < hours 1) by reflexivity.
  assert (H3 : hours 1 < hours 24) by reflexivity.
  split; [|split; [|split]].
  - intros Hlt Hne.
    destruct (Z.eqb_spec d (seconds 1)); [contradiction|].
    destruct (Z.ltb_spec d (minutes 1)); [|lia].
    unfold render. do 2 f_equal.
    revert Hlt. unfold time_duration_seconds, seconds, minutes, ticks_per_second.
    intros Hlt. Z.to_euclidean_division_equations. lia.
  - intros [Hgt Hlt].
    destruct (Z.eqb_spec d (seconds 1)); [lia|].
    destruct (Z.ltb_spec d (minutes 1)); [lia|].
    destruct (Z.eqb_spec d (minutes 1)); [lia|].
    destruct (Z.ltb_spec d (hours 1)); [|lia].
    unfold render. do 2 f_equal.
    revert Hgt Hlt.
    unfold time_duration_minutes, minutes, hours, ticks_per_second.
    intros Hgt Hlt. Z.to_euclidean_division_equations. lia.
  - intros [Hgt Hlt].
    destruct (Z.eqb_spec d (seconds 1)); [lia|].
    destruct (Z.ltb_spec d (minutes 1)); [lia|].
    destruct (Z.eqb_spec d (minutes 1)); [lia|].
    destruct (Z.ltb_spec d (hours 1)); [lia|].
    destruct (Z.eqb_spec d (hours 1)); [lia|].
    destruct (Z.ltb_spec d (hours 24)); [|lia].
    unfold render. do 2 f_equal.
    revert Hgt Hlt. unfold time_duration_hours, hours, ticks_per_second.
    intros Hgt Hlt. Z.to_euclidean_division_equations. lia.
  - intros Hge.
    destruct (Z.eqb_spec d (seconds 1)); [lia|].
    destruct (Z.ltb_spec d (minutes 1)); [lia|].
    destruct (Z.eqb_spec d (minutes 1)); [lia|].
    destruct (Z.ltb_spec d (hours 1)); [lia|].
    destruct (Z.eqb_spec d (hours 1)); [lia|].
    destruct (Z.ltb_spec d (hours 24)); [lia|]. reflexivity.
Qed.

Lemma toString_truncated_count_witness :
  toString (mkBarSize (seconds 119)) = render 1 Mins /\
  toString (mkBarSize (seconds 61)) = render 1 Mins.
Proof.
  split.
  - apply (toString_truncated_count (seconds 119)); vm_compute;
      (discriminate || (split; reflexivity)).
  - apply (toString_truncated_count (seconds 61)); vm_compute;
      (discriminate || (split; reflexivity)).
Defined.

(** A zero or negative duration, which the constructor accepts, is
    labelled in seconds with the sign-carrying seconds field, a number in
    (-60, 0]; every non-positive whole number of minutes is labelled
    "0 secs". *)
Theorem toString_nonpositive (d : time_duration) :
  d <= 0 ->
  BarSize_new d = Returned (mkBarSize d) /\
  toString (mkBarSize d) = render (time_duration_seconds d) Secs /\
  -60 < time_duration_seconds d <= 0 /\
  (d mod minutes 1 = 0 -> toString (mkBarSize d) = "0 secs"%string).
Proof.
  intros Hd. assert (H24 : 0 < hours 24) by reflexivity.
  assert (Hs : toString (mkBarSize d) = render (time_duration_seconds d) Secs).
  { unfold toString. simpl barSize_.
    destruct (Z.eqb_spec d (seconds 1)) as [He|_];
      [revert He; unfold seconds, ticks_per_second; lia|].
    destruct (Z.ltb_spec d (minutes 1)) as [_|Hge];
      [reflexivity | revert Hge; unfold minutes, ticks_per_second; lia]. }
  split; [apply BarSize_new_Returned; lia|].
  split; [exact Hs|]. split.
  - unfold time_duration_seconds, ticks_per_second.
    Z.to_euclidean_division_equations. lia.
  - intros Hm. rewrite Hs.
    replace (time_duration_seconds d) with 0; [reflexivity|].
    revert Hm. unfold time_duration_seconds, minutes, ticks_per_second.
    intros Hm. Z.to_euclidean_division_equations. lia.
Qed.

Lemma toString_nonpositive_witness :
  toString (mkBarSize (hours (-1))) = "0 secs"%string /\
  toString (mkBarSize (seconds (-5))) = render (-5) Secs.
Proof.
  split.
  - apply (toString_nonpositive (hours (-1))); vm_compute;
      (discriminate || reflexivity).
  - apply (toString_nonpositive (seconds (-5))). vm_compute. discriminate.
Defined.

(** Concatenation with a [BarSize] on either side inserts its label, so a
    chain [first + b + other] reads the same however it is bracketed, and
    [first += b] appends the label to [first]. *)
Theorem operator_plus_assoc (first other : string) (b : BarSize) :
  String.append (operator_plus_string first b) other
  = String.append first (operator_plus b other) /\
  operator_plus_assign first b = String.append first (toString b) /\
  String.length (operator_plus_assign first b)
  = (String.length first + String.length (toString b))%nat.
Proof.
  unfold operator_plus_assign, operator_plus_string, operator_plus.
  split; [|split; [reflexivity|]].
  - induction first as [|c s IH]; [reflexivity|].
    rewrite !append_cons. now rewrite IH.
  - induction first as [|c s IH]; [reflexivity|].
    rewrite append_cons. simpl. now rewrite IH.
Qed.

End LabelFacts.

(** ** BarData: construction and sequences of insertions *)

Section BarDataMore.
Import timeUtils bar.
Context {double : Type}.
Implicit Types (this : BarData double) (b : Bar double)
  (l : list (Bar double)).

(** A [BarData] built from a duration is built exactly when the duration
    is at most 24 hours, otherwise the constructor throws
    [std::invalid_argument]; once built it is empty and carries the bar size
    of that duration. *)
Theorem BarData_new_outcome (d : time_duration) :
  (d <= hours 24 ->
   BarData_new (double := double) d = Returned (mkBarData ∅ (mkBarSize d))) /\
  (hours 24 < d ->
   BarData_new (double := double) d
   = Thrown (invalid_argument "barSize must be less than 24 hours.")) /\
  (forall this, BarData_new d = Returned this ->
     BarData_size this = 0%nat /\ barSize this = mkBarSize d /\
     forall t : ptime, bars this !! t = None).
Proof.
  assert (Hok : d <= hours 24 ->
    BarData_new (double := double) d = Returned (mkBarData ∅ (mkBarSize d))).
  { intros Hle. unfold BarData_new. now rewrite BarSize_new_Returned. }
  assert (Hko : hours 24 < d ->
    BarData_new (double := double) d
    = Thrown (invalid_argument "barSize must be less than 24 hours.")).
  { intros Hgt. unfold BarData_new. now rewrite BarSize_new_Thrown. }
  split; [exact Hok|]. split; [exact Hko|].
  intros this Hnew. destruct (Z_le_gt_dec d (hours 24)) as [Hle|Hgt].
  - rewrite Hok in Hnew by exact Hle. injection Hnew as <-.
    unfold BarData_size, barSize. simpl.
    split; [apply map_size_empty | split; [reflexivity | apply lookup_empty]].
  - rewrite Hko in Hnew by lia. discriminate.
Qed.

Lemma addBar_size_bounds this b :
  (BarData_size this <= BarData_size (addBar this b) <= S (BarData_size this))%nat.
Proof.
  unfold BarData_size, addBar. cbn [bars]. rewrite map_size_insert.
  match goal with |- context [match ?x with Some _ => _ | None => _ end] =>
    destruct x end; simpl; lia.
Qed.

(** An insertion leaves the size as it is when the timestamp is already
    in the series, and adds one when it is new; the bar size of the series
    is kept. *)
Theorem addBar_size_step this b :
  BarData_size (addBar this b)
  = (if decide (is_Some (bars this !! dateTime b))
     then BarData_size this else S (BarData_size this)) /\
  (BarData_size this <= BarData_size (addBar this b) <= S (BarData_size this))%nat /\
  barSize (addBar this b) = barSize this.
Proof.
  assert (Hstep : BarData_size (addBar this b)
    = if decide (is_Some (bars this !! dateTime b))
      then BarData_size this else S (BarData_size this)).
  { unfold BarData_size, addBar. cbn [bars]. rewrite map_size_insert.
    match goal with |- context [match ?x with Some _ => _ | None => _ end] =>
      destruct x as [old|] eqn:Hl end; case_decide as Hd; try reflexivity.
    - exfalso. apply Hd. exists old. exact Hl.
    - destruct Hd as [old Hold]. exfalso.
      assert (Some old = None) by (rewrite <- Hold; exact Hl). discriminate. }
  split; [exact Hstep|]. split; [|reflexivity].
  rewrite Hstep. case_decide; lia.
Qed.

(** Insertions at different timestamps commute. *)
Theorem addBar_commute this b1 b2 :
  dateTime b1 <> dateTime b2 ->
  addBar (addBar this b1) b2 = addBar (addBar this b2) b1.
Proof.
  intros Hne. unfold addBar. simpl. f_equal.
  now apply insert_insert_ne.
Qed.

(** After a sequence of insertions (the loop of [generateBars] in
    testBar.cpp), the bar at a timestamp is the last inserted bar with that
    timestamp, and the earlier content where no inserted bar has it. *)
Theorem addBar_foldl_lookup this l (t : ptime) :
  bars (foldl addBar this l) !! t
  = match last (filter (fun b => dateTime b = t) l) with
    | Some b => Some b
    | None => bars this !! t
    end.
Proof.
  induction l as [|b l IH] using rev_ind; [reflexivity|].
  rewrite foldl_snoc, filter_app, filter_cons, filter_nil.
  case_decide as Ht.
  - rewrite last_snoc. subst t. apply addBar_lookup.
  - rewrite app_nil_r, addBar_lookup_other by congruence. exact IH.
Qed.

Lemma addBar_foldl_dom this l :
  dom (bars (foldl addBar this l))
  = dom (bars this) ∪ list_to_set (dateTime <$> l).
Proof.
  induction l as [|b l IH] using rev_ind.
  { symmetry. apply (right_id_L ∅ (∪)). }
  rewrite foldl_snoc, fmap_app, list_to_set_app_L.
  unfold addBar at 1. cbn [bars]. rewrite dom_insert_L, IH.
  cbn [fmap list_fmap list_to_set]. apply set_eq. intros x.
  rewrite !elem_of_union, elem_of_singleton, elem_of_empty. tauto.
Qed.

Lemma size_list_to_set_le (ts : list Z) :
  (size (list_to_set ts : gset Z) <= length ts)%nat /\
  (size (list_to_set ts : gset Z) = length ts -> NoDup ts).
Proof.
  induction ts as [|t ts [IHle IHnd]].
  - split; [rewrite list_to_set_nil, size_empty; simpl; lia | constructor].
  - rewrite list_to_set_cons. simpl length.
    destruct (decide (t ∈ ts)) as [Hin|Hnin].
    + assert (Heq : ({[t]} ∪ list_to_set ts : gset Z) = list_to_set ts).
      { apply subseteq_union_1_L, singleton_subseteq_l.
        now apply elem_of_list_to_set. }
      rewrite Heq. split; lia.
    + rewrite size_union, size_singleton
        by (apply disjoint_singleton_l; now rewrite elem_of_list_to_set).
      split; [lia|]. intros Hs. constructor; [exact Hnin | apply IHnd; lia].
Qed.

(** [size] counts timestamps, not insertions: after a sequence of
    insertions it has grown by at most their number, and on a series that
    was empty it is the number of bars exactly when their timestamps are
    pairwise different. *)
Theorem addBar_foldl_size this l :
  (BarData_size this <= BarData_size (foldl addBar this l)
   <= BarData_size this + length l)%nat /\
  (bars this = ∅ ->
   BarData_size (foldl addBar this l)
   = size (list_to_set (dateTime <$> l) : gset Z)) /\
  (bars this = ∅ ->
   (BarData_size (foldl addBar this l) = length l
    <-> NoDup (dateTime <$> l))).
Proof.
  assert (Hbound : (BarData_size this <= BarData_size (foldl addBar this l)
                    <= BarData_size this + length l)%nat).
  { induction l as [|b l IH] using rev_ind; [simpl; lia|].
    rewrite foldl_snoc, length_app. simpl.
    pose proof (addBar_size_bounds (foldl addBar this l) b). lia. }
  assert (Hsize : bars this = ∅ ->
    BarData_size (foldl addBar this l)
    = size (list_to_set (dateTime <$> l) : gset Z)).
  { intros He. unfold BarData_size.
    rewrite <- (size_dom (D := gset Z)), addBar_foldl_dom, He, dom_empty_L.
    f_equal. apply (left_id_L ∅ (∪)). }
  split; [exact Hbound|]. split; [exact Hsize|].
  intros He. rewrite (Hsize He). split.
  - intros Hlen. apply size_list_to_set_le. now rewrite length_fmap.
  - intros Hnd. rewrite size_list_to_set by exact Hnd. apply length_fmap.
Qed.

End BarDataMore.

Lemma BarData_new_outcome_witness :
  bar.BarData_new (double := Z) (timeUtils.minutes 5)
  = Returned (bar.mkBarData ∅ (bar.mkBarSize (timeUtils.minutes 5))) /\
  bar.BarData_new (double := Z) (timeUtils.hours 25)
  = Thrown (invalid_argument "barSize must be less than 24 hours.").
Proof.
  split.
  - apply (proj1 (BarData_new_outcome (double := Z) (timeUtils.minutes 5))).
    vm_compute. discriminate.
  - apply (proj1 (proj2 (BarData_new_outcome (double := Z) (timeUtils.hours 25)))).
    vm_compute. reflexivity.
Defined.

Lemma addBar_foldl_size_witness :
  let t := timeUtils.ptime_of (timeUtils.date_of_ymd 2020 3 30) (timeUtils.td 9 0 0) in
  let b1 := bar.mkBar t 180 179 179 179 179 12341234 10 in
  let b2 := bar.mkBar (t + 1) 181 178 179 180 179 50 2 in
  let this := bar.mkBarData (double := Z) ∅ (bar.mkBarSize (timeUtils.minutes 5)) in
  bar.BarData_size (foldl bar.addBar this [b1; b2; b1]) = 2%nat.
Proof.
  intros t b1 b2 this.
  destruct (addBar_foldl_size this [b1; b2; b1]) as (_ & Hs & _).
  rewrite Hs by reflexivity. vm_compute. reflexivity.
Defined.

Lemma addBar_commute_witness :
  let t := timeUtils.ptime_of (timeUtils.date_of_ymd 2020 3 30) (timeUtils.td 9 0 0) in
  let b1 := bar.mkBar t 180 179 179 179 179 12341234 10 in
  let b2 := bar.mkBar (t + 1) 181 178 179 180 179 50 2 in
  let this := bar.mkBarData (double := Z) ∅ (bar.mkBarSize (timeUtils.minutes 5)) in
  bar.addBar (bar.addBar this b1) b2 = bar.addBar (bar.addBar this b2) b1.
Proof.
  intros t b1 b2 this. apply (addBar_commute this b1 b2).
  vm_compute. discriminate.
Defined.

(** ** getFilePaths *)

Section GetFilePathsMore.
Import timeUtils bar histRetriever.

(** [getFilePaths] never returns a list of paths: below 24 hours it throws
    [std::logic_error], from 24 hours on it reaches its end without a
    [return]; which of the two happens depends on the bar size alone, not on
    the symbol or the instants. *)
Theorem getFilePaths_never_returns (symbol : string)
    (startDateTime endDateTime : ptime) (barSize : BarSize) :
  ~ succeeds (getFilePaths symbol startDateTime endDateTime barSize) /\
  (throws (getFilePaths symbol startDateTime endDateTime barSize)
   <-> barSize_ barSize < hours 24) /\
  (getFilePaths symbol startDateTime endDateTime barSize = FellOffEnd
   <-> hours 24 <= barSize_ barSize) /\
  (forall symbol' startDateTime' endDateTime',
     getFilePaths symbol' startDateTime' endDateTime' barSize
     = getFilePaths symbol startDateTime endDateTime barSize).
Proof.
  destruct (Z_lt_ge_dec (barSize_ barSize) (hours 24)) as [Hlt|Hge].
  - assert (Hop : operator_lt_duration barSize (hours 24) = true)
      by (unfold operator_lt_duration; now apply Z.ltb_lt).
    rewrite (getFilePaths_intraday_throws symbol _ _ _ Hop).
    split; [intros [paths Hp]; discriminate|].
    split; [split; [lia | intros _; eexists; reflexivity]|].
    split; [split; [discriminate | lia]|].
    intros symbol' s' e'. now rewrite (getFilePaths_intraday_throws symbol' _ _ _ Hop).
  - assert (Hop : operator_ge_duration barSize (hours 24) = true)
      by (unfold operator_ge_duration; apply Z.geb_le; lia).
    rewrite (getFilePaths_daily_no_return symbol _ _ _ Hop).
    split; [intros [paths Hp]; discriminate|].
    split; [split; [intros [e He]; discriminate | lia]|].
    split; [split; [lia | reflexivity]|].
    intros symbol' s' e'. now rewrite (getFilePaths_daily_no_return symbol' _ _ _ Hop).
Qed.

(** For a bar size that a constructor returned, the daily branch, guarded
    by [barSize >= hours(24)], is taken for exactly 24 hours and for no other
    duration; every other constructed bar size gets the
    [std::logic_error]. *)
Theorem getFilePaths_daily_only_24h (symbol : string)
    (startDateTime endDateTime : ptime) (d : time_duration) (barSize : BarSize) :
  BarSize_new d = Returned barSize ->
  (operator_ge_duration barSize (hours 24)
   = operator_eq_duration barSize (hours 24)) /\
  (getFilePaths symbol startDateTime endDateTime barSize = FellOffEnd
   <-> d = hours 24) /\
  (d <> hours 24 ->
   getFilePaths symbol startDateTime endDateTime barSize
   = Thrown (logic_error
       "Retrieving intraday historical bar data is not yer implemented.")).
Proof.
  intros Hnew. destruct (Z_le_gt_dec d (hours 24)) as [Hle|Hgt];
    [|rewrite BarSize_new_Thrown in Hnew by lia; discriminate].
  rewrite BarSize_new_Returned in Hnew by exact Hle. injection Hnew as <-.
  split; [|split].
  - unfold operator_ge_duration, operator_eq_duration. simpl.
    destruct (Z.geb_spec d (hours 24)), (Z.eqb_spec d (hours 24)); lia || reflexivity.
  - destruct (Z.eq_dec d (hours 24)) as [->|Hne].
    + split; [reflexivity | intros _].
      now apply getFilePaths_daily_no_return.
    + rewrite getFilePaths_intraday_throws
        by (unfold operator_lt_duration; simpl; apply Z.ltb_lt; lia).
      split; [discriminate | contradiction].
  - intros Hne. apply getFilePaths_intraday_throws.
    unfold operator_lt_duration. simpl. apply Z.ltb_lt. lia.
Qed.

Lemma getFilePaths_daily_only_24h_witness :
  getFilePaths "SPY" 0 0 (mkBarSize (hours 23))
  = Thrown (logic_error
      "Retrieving intraday historical bar data is not yer implemented.").
Proof.
  apply (getFilePaths_daily_only_24h "SPY" 0 0 (hours 23) (mkBarSize (hours 23))).
  - reflexivity.
  - vm_compute. discriminate.
Defined.

End GetFilePathsMore.
